(** * The [Sequence] wrapper of PolDeepNer (wrapper.py)

    [Sequence] is a facade over four collaborators that live in other
    modules: the [VectorTransformer] preprocessor, the [BiLSTMCRF] model
    builder with [save_model]/[load_model], the [Trainer], and the corpus
    reader [load_data]; [f1_score] comes from seqeval.  The wrapper's own
    code is embedded method by method in a state-and-exception monad; the
    collaborators are the fields of the class [Collaborators]. *)

From Stdlib Require Import QArith Ascii.
From stdpp Require Import gmap strings list fin_maps.

Open Scope Z_scope.

(** ** Python values handled by the wrapper *)

(** A sentence is a list of tokens, a tag sequence a list of labels, and the
    auxiliary columns of one token a list of strings. *)
Abbreviation Sentence := (list string).
Abbreviation TagSeq := (list string).
Abbreviation CTags := (list string).

(** The newline character written by [predict_to_iob]. *)
Definition nl : string := String (Ascii.ascii_of_nat 10) EmptyString.

(** What a file holds: text written through [open(..., 'w')], or a pickle
    written by a collaborator. *)
Inductive File (Blob : Type) :=
| TextFile (content : string)
| PickleFile (b : Blob).
Arguments TextFile {Blob} content.
Arguments PickleFile {Blob} b.

(** The attributes of a [Trainer] that [fit] reads once [train] is over,
    and the model the trainer was working on. *)
Record Trainer (Model Report : Type) := {
  current_model : Model;
  best_model : option Model;
  best_model_report : Report
}.
Arguments current_model {Model Report} t.
Arguments best_model {Model Report} t.
Arguments best_model_report {Model Report} t.

(** Keyword arguments of [BiLSTMCRF(...)] as [fit] passes them. *)
Record BuildArgs := {
  num_labels : Z;
  word_embedding_dim : Z;
  b_word_lstm_size : Z;
  b_char_lstm_size : Z;
  b_fc_dim : Z;
  b_dropout : Q;
  b_use_char : bool;
  b_use_crf : bool;
  b_nn_type : string
}.

(** Arguments of [Trainer.train] as [fit] passes them. *)
Record TrainArgs (Callbacks : Type) := {
  t_x_train : list Sentence;
  t_y_train : list TagSeq;
  t_x_valid : option (list Sentence);
  t_y_valid : option (list TagSeq);
  t_epochs : Z;
  t_batch_size : Z;
  t_verbose : Z;
  t_callbacks : option Callbacks;
  t_shuffle : bool
}.
Arguments t_x_train {Callbacks} t.
Arguments t_y_train {Callbacks} t.
Arguments t_x_valid {Callbacks} t.
Arguments t_y_valid {Callbacks} t.

(** ** The collaborators

    Everything [wrapper.py] imports.  A call that can raise returns
    [CErr + _]; [p_fit] mutates the preprocessor in place, so it returns the
    preprocessor it leaves behind together with the exception, if any.
    [transform], [inverse_transform] and [predict] read their object and
    return a value.  The persistence functions are given by the bytes they
    put into, or expect in, the file at the path they are handed. *)
Class Collaborators := {
  Embedding : Type;
  VectorTransformer : Type;
  Tensor : Type;
  Prediction : Type;
  Model : Type;
  Loss : Type;
  Report : Type;
  Score : Type;
  Blob : Type;
  Callbacks : Type;
  CErr : Type;
  (* preprocessing.VectorTransformer *)
  VectorTransformer_init : Embedding -> bool -> VectorTransformer;
  p_fit : VectorTransformer -> list Sentence -> list TagSeq ->
          option CErr * VectorTransformer;
  label_size : VectorTransformer -> Z;
  vector_len : VectorTransformer -> Z;
  p_transform : VectorTransformer -> list Sentence -> CErr + Tensor;
  p_inverse_transform : VectorTransformer -> Prediction -> list nat ->
                        CErr + list TagSeq;
  p_save : VectorTransformer -> CErr + Blob;
  p_load : Blob -> Embedding -> CErr + VectorTransformer;
  (* models.BiLSTMCRF, and the Keras model it builds *)
  BiLSTMCRF_build : BuildArgs -> CErr + (Model * Loss);
  compile : Model -> Loss -> string -> CErr + Model;
  predict : Model -> Tensor -> CErr + Prediction;
  save_model : option Model -> CErr + (Blob * Blob);
  load_model : Blob -> Blob -> CErr + Model;
  (* trainer.Trainer *)
  train : Model -> VectorTransformer -> TrainArgs Callbacks ->
          CErr + Trainer Model Report;
  (* seqeval.metrics.f1_score *)
  f1_score : list TagSeq -> list TagSeq -> CErr + Score;
  (* load_data.load_data *)
  load_data : string -> gmap string (File Blob) ->
              CErr + (list Sentence * list TagSeq * list (list CTags));
  (* what a reader raises on a path that holds no pickle *)
  unreadable : string -> CErr
}.

Section Wrapper.
Context {C : Collaborators}.

(** ** Exceptions *)

(** [OSError] is the one exception the wrapper raises by itself (in
    [score]); [AttributeError] and [IndexError] are raised by the
    interpreter on [None.predict] and on [[][0]]; [CollabError] is an
    exception raised inside a collaborator, which the wrapper lets through
    unchanged. *)
Inductive exn :=
| OSError (msg : string)
| AttributeError (msg : string)
| IndexError (msg : string)
| CollabError (e : CErr).

(** ** The object and the world around it *)

Record Sequence := {
  model : option Model;
  tagger : option unit;
  p : VectorTransformer;
  best_report : option Report;   (* no such attribute until [fit] sets it *)
  char_embedding_dim : Z;
  word_lstm_size : Z;
  char_lstm_size : Z;
  fc_dim : Z;
  dropout : Q;
  use_char : bool;
  use_crf : bool;
  initial_vocab : option (list string);
  optimizer : string;
  lower : bool;
  nn_type : string
}.

(** Calls that leave the wrapper, in the order they are made. *)
Inductive Event :=
| Call_p_fit (x : list Sentence) (y : list TagSeq)
| Call_build (a : BuildArgs)
| Call_compile (m : Model) (l : Loss) (opt : string)
| Call_train (m : Model) (pre : VectorTransformer) (a : TrainArgs Callbacks)
| Call_transform (x : list Sentence)
| Call_predict (m : Model) (x : Tensor)
| Call_inverse_transform (y : Prediction) (lengths : list nat)
| Call_f1_score (y_true y_pred : list TagSeq)
| Call_load_data (path : string)
| Call_p_save (path : string)
| Call_save_model (m : option Model) (weights_file params_file : string)
| Call_load_model (weights_file params_file : string)
| Call_p_load (path : string) (e : Embedding)
| Open_w (path : string)
| File_write (path : string) (s : string)
| Stdout_str (s : string)
| Stdout_report (r : Report).

Record World := {
  self : Sequence;
  fs : gmap string (File Blob);
  calls : list Event
}.

Definition with_self (s : Sequence) (w : World) : World :=
  {| self := s; fs := fs w; calls := calls w |}.
Definition with_fs (f : gmap string (File Blob)) (w : World) : World :=
  {| self := self w; fs := f; calls := calls w |}.
Definition with_calls (l : list Event) (w : World) : World :=
  {| self := self w; fs := fs w; calls := l |}.

Definition set_model (m : option Model) (s : Sequence) : Sequence :=
  {| model := m; tagger := tagger s; p := p s; best_report := best_report s;
     char_embedding_dim := char_embedding_dim s;
     word_lstm_size := word_lstm_size s; char_lstm_size := char_lstm_size s;
     fc_dim := fc_dim s; dropout := dropout s; use_char := use_char s;
     use_crf := use_crf s; initial_vocab := initial_vocab s;
     optimizer := optimizer s; lower := lower s; nn_type := nn_type s |}.
Definition set_p (v : VectorTransformer) (s : Sequence) : Sequence :=
  {| model := model s; tagger := tagger s; p := v;
     best_report := best_report s;
     char_embedding_dim := char_embedding_dim s;
     word_lstm_size := word_lstm_size s; char_lstm_size := char_lstm_size s;
     fc_dim := fc_dim s; dropout := dropout s; use_char := use_char s;
     use_crf := use_crf s; initial_vocab := initial_vocab s;
     optimizer := optimizer s; lower := lower s; nn_type := nn_type s |}.
Definition set_best_report (r : option Report) (s : Sequence) : Sequence :=
  {| model := model s; tagger := tagger s; p := p s; best_report := r;
     char_embedding_dim := char_embedding_dim s;
     word_lstm_size := word_lstm_size s; char_lstm_size := char_lstm_size s;
     fc_dim := fc_dim s; dropout := dropout s; use_char := use_char s;
     use_crf := use_crf s; initial_vocab := initial_vocab s;
     optimizer := optimizer s; lower := lower s; nn_type := nn_type s |}.

(** ** The monad: a world threaded through, an exception or a value out.
    The world survives an exception, as a Python object survives one. *)
Definition M (A : Type) : Type := World -> (exn + A) * World.

#[global] Instance M_ret : MRet M := fun A a w => (inr a, w).
#[global] Instance M_bind : MBind M := fun A B f m w =>
  match m w with
  | (inl e, w') => (inl e, w')
  | (inr a, w') => f a w'
  end.

Definition raise {A} (e : exn) : M A := fun w => (inl e, w).
Definition get_self : M Sequence := fun w => (inr (self w), w).
Definition update_self (f : Sequence -> Sequence) : M unit :=
  fun w => (inr tt, with_self (f (self w)) w).
Definition get_fs : M (gmap string (File Blob)) := fun w => (inr (fs w), w).
Definition put_file (path : string) (f : File Blob) : M unit :=
  fun w => (inr tt, with_fs (<[path := f]> (fs w)) w).
Definition emit (ev : Event) : M unit :=
  fun w => (inr tt, with_calls (calls w ++ [ev]) w).

(** The outcome of a collaborator call: its value, or its exception
    propagated as it is. *)
Definition lift {A} (r : CErr + A) : M A :=
  match r with
  | inl e => raise (CollabError e)
  | inr a => mret a
  end.
Definition call {A} (ev : Event) (r : CErr + A) : M A := emit ev;; lift r.

(** [for v in l: body(v)] *)
Fixpoint for_each {A} (l : list A) (body : A -> M unit) : M unit :=
  match l with
  | [] => mret tt
  | v :: l' => body v;; for_each l' body
  end.

(** Truth value of a list, and of an argument that defaults to [None]. *)
Definition truthy {A} (l : list A) : bool :=
  match l with [] => false | _ => true end.
Definition truthy_opt {A} (o : option (list A)) : bool :=
  match o with Some l => truthy l | None => false end.

(** The test [if x_train and y_valid]. *)
Definition adopts (x_train : list Sentence) (y_valid : option (list TagSeq))
    : bool :=
  truthy x_train && truthy_opt y_valid.

(** ** [__init__] *)

Record Config := {
  c_char_embedding_dim : Z;
  c_word_lstm_size : Z;
  c_char_lstm_size : Z;
  c_fc_dim : Z;
  c_dropout : Q;
  c_use_char : bool;
  c_use_crf : bool;
  c_initial_vocab : option (list string);
  c_lower : bool;
  c_optimizer : string;
  c_nn_type : string
}.

Definition defaults : Config := {|
  c_char_embedding_dim := 25;
  c_word_lstm_size := 100;
  c_char_lstm_size := 25;
  c_fc_dim := 100;
  c_dropout := 1 # 2;
  c_use_char := true;
  c_use_crf := true;
  c_initial_vocab := None;
  c_lower := false;
  c_optimizer := "adam";
  c_nn_type := "GRU"
|}.

Definition init (embedding : Embedding) (c : Config) : Sequence := {|
  model := None;
  tagger := None;
  p := VectorTransformer_init embedding (c_use_char c);
  best_report := None;
  char_embedding_dim := c_char_embedding_dim c;
  word_lstm_size := c_word_lstm_size c;
  char_lstm_size := c_char_lstm_size c;
  fc_dim := c_fc_dim c;
  dropout := c_dropout c;
  use_char := c_use_char c;
  use_crf := c_use_crf c;
  initial_vocab := c_initial_vocab c;
  optimizer := c_optimizer c;
  lower := c_lower c;
  nn_type := c_nn_type c
|}.

(** ** [fit] *)

Definition build_args (s : Sequence) : BuildArgs := {|
  num_labels := label_size (p s);
  word_embedding_dim := vector_len (p s);
  b_word_lstm_size := word_lstm_size s;
  b_char_lstm_size := char_lstm_size s;
  b_fc_dim := fc_dim s;
  b_dropout := dropout s;
  b_use_char := use_char s;
  b_use_crf := use_crf s;
  b_nn_type := nn_type s
|}.

Definition fit (x_train : list Sentence) (y_train : list TagSeq)
    (x_valid : option (list Sentence)) (y_valid : option (list TagSeq))
    (epochs batch_size verbose : Z) (callbacks : option Callbacks)
    (shuffle : bool) : M unit :=
  (* self.p.fit(x_train, y_train) *)
  s ← get_self;
  emit (Call_p_fit x_train y_train);;
  let '(err, p1) := p_fit (p s) x_train y_train in
  update_self (set_p p1);;
  match err with Some e => raise (CollabError e) | None => mret tt end;;
  (* model = BiLSTMCRF(...); model, loss = model.build() *)
  s ← get_self;
  '(mdl, loss) ← call (Call_build (build_args s))
                      (BiLSTMCRF_build (build_args s));
  (* model.compile(loss=loss, optimizer=self.optimizer) *)
  mdl ← call (Call_compile mdl loss (optimizer s))
             (compile mdl loss (optimizer s));
  (* trainer = Trainer(model, preprocessor=self.p); trainer.train(...) *)
  let a := {| t_x_train := x_train; t_y_train := y_train;
              t_x_valid := x_valid; t_y_valid := y_valid;
              t_epochs := epochs; t_batch_size := batch_size;
              t_verbose := verbose; t_callbacks := callbacks;
              t_shuffle := shuffle |} in
  trainer ← call (Call_train mdl (p s) a) (train mdl (p s) a);
  (* if x_train and y_valid: *)
  if adopts x_train y_valid then
    update_self (set_model (best_model trainer));;
    update_self (set_best_report (Some (best_model_report trainer)));;
    emit (Stdout_str "Best model report: ");;
    emit (Stdout_report (best_model_report trainer))
  else mret tt.

(** The steps of [fit] that leave the wrapper. *)
Inductive step :=
| Fit_preprocessor | Build_model | Compile_model | Train_model | Report_best.

Definition step_of (ev : Event) : option step :=
  match ev with
  | Call_p_fit _ _ => Some Fit_preprocessor
  | Call_build _ => Some Build_model
  | Call_compile _ _ _ => Some Compile_model
  | Call_train _ _ _ => Some Train_model
  | Stdout_str _ | Stdout_report _ => Some Report_best
  | _ => None
  end.

(** ** [score] *)

Definition no_model_msg : string :=
  "Could not find a model. Call load(dir_path).".

Definition score (x_test : list Sentence) (y_test : list TagSeq) : M Score :=
  s ← get_self;
  match model s with
  | Some m =>
      x ← call (Call_transform x_test) (p_transform (p s) x_test);
      let lengths := map length y_test in
      y_pred ← call (Call_predict m x) (predict m x);
      y_pred ← call (Call_inverse_transform y_pred lengths)
                    (p_inverse_transform (p s) y_pred lengths);
      call (Call_f1_score y_test y_pred) (f1_score y_test y_pred)
  | None => raise (OSError no_model_msg)
  end.

(** ** [predict_sentence] *)

Definition none_predict_msg : string :=
  "'NoneType' object has no attribute 'predict'".

Definition predict_sentence (sentence : Sentence) : M TagSeq :=
  s ← get_self;
  x_test ← call (Call_transform [sentence]) (p_transform (p s) [sentence]);
  let lengths := [length sentence] in
  match model s with
  | None => raise (AttributeError none_predict_msg)
  | Some m =>
      y_pred ← call (Call_predict m x_test) (predict m x_test);
      y_pred ← call (Call_inverse_transform y_pred lengths)
                    (p_inverse_transform (p s) y_pred lengths);
      match y_pred with
      | y :: _ => mret y
      | [] => raise (IndexError "list index out of range")
      end
  end.

(** What [predict_sentence] returns, read off the collaborators. *)
Definition predict_sentence_outcome (s : Sequence) (sentence : Sentence)
    : exn + TagSeq :=
  match p_transform (p s) [sentence] with
  | inl e => inl (CollabError e)
  | inr x =>
      match model s with
      | None => inl (AttributeError none_predict_msg)
      | Some m =>
          match predict m x with
          | inl e => inl (CollabError e)
          | inr y =>
              match p_inverse_transform (p s) y [length sentence] with
              | inl e => inl (CollabError e)
              | inr [] => inl (IndexError "list index out of range")
              | inr (t :: _) => inr t
              end
          end
      end
  end.

(** ** [predict_to_iob] *)

(** [open(path, 'w')]: the file is created, or emptied if it was there. *)
Definition open_w (path : string) : M unit :=
  emit (Open_w path);; put_file path (TextFile "").

(** [output_file.write(s)] on the file opened at [path]. *)
Definition write (path s : string) : M unit :=
  emit (File_write path s);;
  f ← get_fs;
  match f !! path with
  | Some (TextFile old) => put_file path (TextFile (old +:+ s))
  | _ => put_file path (TextFile s)
  end.

(** The string built for one token. *)
Definition to_write (token prediction : string) (ctags : CTags) : string :=
  let t := fold_left (fun acc ctag => acc +:+ " " +:+ ctag) ctags token in
  if negb (String.eqb prediction "") then t +:+ " " +:+ prediction
  else t +:+ " O" +:+ nl.

Definition predict_to_iob (input_path output_path : string) : M unit :=
  open_w output_path;;
  f ← get_fs;
  '(x, _, all_ctags) ← call (Call_load_data input_path)
                            (load_data input_path f);
  for_each (zip x all_ctags) (fun '(sentence, sent_ctags) =>
    predictions ← predict_sentence sentence;
    for_each (zip sentence (zip predictions sent_ctags))
      (fun '(token, (prediction, ctags)) =>
         write output_path (to_write token prediction ctags));;
    write output_path nl).

(** The line the export format asks for: the token, its columns and the
    tag, [O] standing for an empty tag, closed by a newline. *)
Definition iob_line (token prediction : string) (ctags : CTags) : string :=
  fold_left (fun acc ctag => acc +:+ " " +:+ ctag) ctags token
  +:+ " " +:+ (if String.eqb prediction "" then "O" else prediction) +:+ nl.

(** The text of the triples of one sentence, as the inner loop writes it. *)
Definition tokens_text (l : list (string * (string * CTags))) : string :=
  foldr (fun '(token, (prediction, ctags)) acc =>
           to_write token prediction ctags +:+ acc) "" l.

(** ** [save] and [load] *)

(** [os.path.join(a, b)] of posixpath, for two components. *)
Definition startswith_sep (b : string) : bool :=
  match b with
  | String c _ => Ascii.eqb c "/"%char
  | EmptyString => false
  end.
Fixpoint endswith_sep (a : string) : bool :=
  match a with
  | EmptyString => false
  | String c EmptyString => Ascii.eqb c "/"%char
  | String _ r => endswith_sep r
  end.
Definition path_join (a b : string) : string :=
  if startswith_sep b then b
  else if String.eqb a "" || endswith_sep a then a +:+ b
  else a +:+ "/" +:+ b.

Definition weights_file (model_path : string) : string :=
  path_join model_path "weights.pkl".
Definition params_file (model_path : string) : string :=
  path_join model_path "params.pkl".
Definition preprocessor_file (model_path : string) : string :=
  path_join model_path "preprocessor.pkl".

(** Reading the pickle at [path], as a loader does. *)
Definition read_pickle (path : string) : M Blob :=
  f ← get_fs;
  match f !! path with
  | Some (PickleFile b) => mret b
  | _ => raise (CollabError (unreadable path))
  end.

Definition save (model_path : string) : M unit :=
  s ← get_self;
  (* self.p.save(preprocessor_file) *)
  b ← call (Call_p_save (preprocessor_file model_path)) (p_save (p s));
  put_file (preprocessor_file model_path) (PickleFile b);;
  (* save_model(self.model, weights_file, params_file) *)
  '(w, h) ← call (Call_save_model (model s) (weights_file model_path)
                                  (params_file model_path))
                 (save_model (model s));
  put_file (weights_file model_path) (PickleFile w);;
  put_file (params_file model_path) (PickleFile h).

(** [load] is a class method: it builds a new object and returns it; the
    object the world holds is not involved. *)
Definition load (model_path : string) (embedding_object : Embedding)
    : M Sequence :=
  let new := init embedding_object defaults in
  (* self.model = load_model(weights_file, params_file) *)
  emit (Call_load_model (weights_file model_path) (params_file model_path));;
  w ← read_pickle (weights_file model_path);
  h ← read_pickle (params_file model_path);
  m ← lift (load_model w h);
  let new := set_model (Some m) new in
  (* self.p = VectorTransformer.load(preprocessor_file, embedding_object) *)
  emit (Call_p_load (preprocessor_file model_path) embedding_object);;
  b ← read_pickle (preprocessor_file model_path);
  v ← lift (p_load b embedding_object);
  mret (set_p v new).

(** Running a method on an object in a given world. *)
Definition run {A} (m : M A) (w : World) : (exn + A) * World := m w.
Definition result {A} (m : M A) (w : World) : exn + A := fst (m w).
Definition after {A} (m : M A) (w : World) : World := snd (m w).

(** A computation that assigns no attribute of the orchestrator. *)
Definition keeps_self {A} (m : M A) : Prop :=
  forall w, self (m w).2 = self w.

(** What a call added to the log. *)
Definition new_calls {A} (m : M A) (w : World) : list Event :=
  drop (length (calls w)) (calls (after m w)).

End Wrapper.

(** ** Further vocabulary for the properties *)

Section Further.
Context {C : Collaborators}.

(** The settings an orchestrator holds, as [__init__] received them. *)
Definition config_of (s : Sequence) : Config := {|
  c_char_embedding_dim := char_embedding_dim s;
  c_word_lstm_size := word_lstm_size s;
  c_char_lstm_size := char_lstm_size s;
  c_fc_dim := fc_dim s;
  c_dropout := dropout s;
  c_use_char := use_char s;
  c_use_crf := use_crf s;
  c_initial_vocab := initial_vocab s;
  c_lower := lower s;
  c_optimizer := optimizer s;
  c_nn_type := nn_type s
|}.

(** Two settings that differ at most in [char_embedding_dim],
    [initial_vocab] and [lower]. *)
Definition same_for_fit (c c' : Config) : Prop :=
  c_word_lstm_size c = c_word_lstm_size c'
  /\ c_char_lstm_size c = c_char_lstm_size c'
  /\ c_fc_dim c = c_fc_dim c'
  /\ c_dropout c = c_dropout c'
  /\ c_use_char c = c_use_char c'
  /\ c_use_crf c = c_use_crf c'
  /\ c_optimizer c = c_optimizer c'
  /\ c_nn_type c = c_nn_type c'.

(** The text the loops of [predict_to_iob] write over the pairs of
    sentences and columns, and the exception that stops them, if one
    does: a sentence whose prediction raises ends the export, and what was
    written for the sentences before it stays. *)
Fixpoint export_blocks (s : Sequence) (pairs : list (Sentence * list CTags))
    : string * option exn :=
  match pairs with
  | [] => ("", None)
  | (sentence, sent_ctags) :: rest =>
      match predict_sentence_outcome s sentence with
      | inl e => ("", Some e)
      | inr predictions =>
          let '(text, err) := export_blocks s rest in
          (tokens_text (zip sentence (zip predictions sent_ctags))
           +:+ nl +:+ text, err)
      end
  end.

(** The outcome of a method that raised [err], or returned if [None]. *)
Definition outcome_of (err : option exn) : exn + unit :=
  match err with
  | Some e => inl e
  | None => inr tt
  end.

End Further.

(** ** A small instance of the collaborators: a dictionary tagger

    Used to run the wrapper on concrete inputs.  Its model is a table from
    token to tag, read on sequences cut at [maxlen] (as on padded batches);
    its preprocessor remembers the labels seen by [fit]; its trainer learns
    the table from the training pairs and has a best model only when it was
    given validation data; its corpus reader finds the corpus already
    parsed. *)
Module Dict.

Record model := { table : list (string * string); maxlen : nat }.
Record pre := { width : Z; chars : bool; labels : list string }.

Inductive blob :=
| B_weights (t : list (string * string))
| B_params (n : nat)
| B_pre (chars : bool) (labels : list string)
| B_corpus (x : list Sentence) (y : list TagSeq) (c : list (list CTags)).

Fixpoint tag_of (t : list (string * string)) (token : string) : string :=
  match t with
  | [] => ""
  | (k, v) :: t' => if String.eqb k token then v else tag_of t' token
  end.

Definition learn (x : list Sentence) (y : list TagSeq)
    : list (string * string) :=
  concat (zip_with zip x y).

Definition agree (a b : list TagSeq) : nat :=
  length (filter (fun '(s, t) => s = t) (zip (concat a) (concat b))).

#[global] Instance collaborators : Collaborators := {|
  Embedding := Z;
  VectorTransformer := pre;
  Tensor := list Sentence;
  Prediction := list TagSeq;
  Model := model;
  Loss := unit;
  Report := string;
  Score := nat * nat;
  Blob := blob;
  Callbacks := unit;
  CErr := string;
  VectorTransformer_init := fun e uc =>
    {| width := e; chars := uc; labels := [] |};
  p_fit := fun v x y =>
    (None, {| width := width v; chars := chars v; labels := concat y |});
  label_size := fun v => Z.of_nat (length (labels v));
  vector_len := width;
  p_transform := fun v x => inr x;
  p_inverse_transform := fun v y lengths => inr (zip_with take lengths y);
  p_save := fun v => inr (B_pre (chars v) (labels v));
  p_load := fun b e =>
    match b with
    | B_pre uc ls => inr {| width := e; chars := uc; labels := ls |}
    | _ => inl "not a preprocessor"
    end;
  BiLSTMCRF_build := fun a => inr ({| table := []; maxlen := 50 |}, tt);
  compile := fun m l opt => inr m;
  predict := fun m x =>
    inr (map (fun s => map (tag_of (table m)) (take (maxlen m) s)) x);
  save_model := fun o =>
    match o with
    | Some m => inr (B_weights (table m), B_params (maxlen m))
    | None => inl "no model to save"
    end;
  load_model := fun w h =>
    match w, h with
    | B_weights t, B_params n => inr {| table := t; maxlen := n |}
    | _, _ => inl "not a model"
    end;
  train := fun m v a =>
    let m' := {| table := learn (t_x_train a) (t_y_train a);
                 maxlen := maxlen m |} in
    inr {| current_model := m';
           best_model :=
             if truthy_opt (t_x_valid a) && truthy_opt (t_y_valid a)
             then Some m' else None;
           best_model_report := "f1 = 1.0" |};
  f1_score := fun y_true y_pred =>
    inr (agree y_true y_pred, length (concat y_true));
  load_data := fun path f =>
    match f !! path with
    | Some (PickleFile (B_corpus x y c)) => inr (x, y, c)
    | _ => inl "no corpus"
    end;
  unreadable := fun path => "cannot read " +:+ path
|}.

(** A new orchestrator, with the defaults of [__init__], in a world with
    the given files. *)
Definition fresh (f : gmap string (File blob)) : World :=
  {| self := init 300 defaults; fs := f; calls := [] |}.

(** The same with a model adopted. *)
Definition tagging (m : model) (f : gmap string (File blob)) : World :=
  {| self := set_model (Some m) (init 300 defaults); fs := f; calls := [] |}.

Definition ner : model :=
  {| table := [("John", "B-PER"); ("lives", "O"); ("in", "O");
               ("Paris", "B-LOC")];
     maxlen := 50 |}.

Definition two_sentences : blob :=
  B_corpus [["John"; "lives"; "in"; "Paris"]; ["Hi"]]
           [["B-PER"; "O"; "O"; "B-LOC"]; ["O"]]
           [[["NNP"]; ["VBZ"]; ["IN"]; ["NNP"]]; [["UH"]]].

End Dict.

(** ** Texts, and runs on the dictionary tagger *)

(** The lines of a text: what lies between its newlines. *)
Fixpoint lines (s : string) : list string :=
  match s with
  | EmptyString => [""]
  | String c r =>
      if Ascii.eqb c (Ascii.ascii_of_nat 10) then "" :: lines r
      else match lines r with
           | l :: ls => String c l :: ls
           | [] => [String c ""]
           end
  end.

(** The text the export format asks for: the lines of each sentence's
    tokens, and an empty line after each sentence. *)
Definition iob_text (blocks : list (list (string * (string * CTags))))
    : string :=
  foldr (fun block acc =>
           foldr (fun '(token, (prediction, ctags)) acc' =>
                    iob_line token prediction ctags +:+ acc') (nl +:+ acc)
                 block) "" blocks.

(** The writes to a file among the calls. *)
Definition is_write `{Collaborators} (ev : Event) : bool :=
  match ev with File_write _ _ => true | _ => false end.

Module Runs.

Definition sentence : Sentence := ["John"; "lives"].
Definition x : list Sentence := [["John"; "lives"; "in"; "Paris"]].
Definition y : list TagSeq := [["B-PER"; "O"; "O"; "B-LOC"]].

(** Training pairs of unequal lengths. *)
Definition x_long : list Sentence := [["John"; "lives"]].
Definition y_short : list TagSeq := [["B-PER"]].

Definition fit_plain : M unit := fit x y None None 1 32 1 None true.
Definition fit_validated : M unit :=
  fit x y (Some x) (Some y) 1 32 1 None true.
Definition fit_mismatched : M unit :=
  fit x_long y_short None None 1 32 1 None true.

(** The arguments [fit_plain] hands to the trainer. *)
Definition plain_args : TrainArgs unit :=
  {| t_x_train := x; t_y_train := y; t_x_valid := None; t_y_valid := None;
     t_epochs := 1; t_batch_size := 32; t_verbose := 1; t_callbacks := None;
     t_shuffle := true |}.
Definition validated_args : TrainArgs unit :=
  {| t_x_train := x; t_y_train := y; t_x_valid := Some x;
     t_y_valid := Some y; t_epochs := 1; t_batch_size := 32; t_verbose := 1;
     t_callbacks := None; t_shuffle := true |}.
Definition built : Dict.model := {| Dict.table := []; Dict.maxlen := 50 |}.
Definition fitted : Dict.pre :=
  {| Dict.width := 300; Dict.chars := true;
     Dict.labels := ["B-PER"; "O"; "O"; "B-LOC"] |}.

(** A corpus file and a model that tags every token but [Hi]. *)
Definition corpus_world : World :=
  Dict.tagging Dict.ner {["in.iob" := PickleFile Dict.two_sentences]}.
Definition export : M unit := predict_to_iob "in.iob" "out.iob".

(** A model that reads two tokens of a sentence and no more, and a corpus
    with one sentence of three tokens. *)
Definition short_sighted : Dict.model :=
  {| Dict.table := Dict.table Dict.ner; Dict.maxlen := 2 |}.
Definition three_tokens : Dict.blob :=
  Dict.B_corpus [["John"; "lives"; "in"]] [["B-PER"; "O"; "O"]]
                [[["NNP"]; ["VBZ"]; ["IN"]]].
Definition short_world : World :=
  Dict.tagging short_sighted {["in.iob" := PickleFile three_tokens]}.

End Runs.

(** Further runs: other settings, a fit with validation labels but no
    validation sentences, a model that tags nothing. *)
Module Edge.

Definition other_settings : Config := {|
  c_char_embedding_dim := 50;
  c_word_lstm_size := 100;
  c_char_lstm_size := 25;
  c_fc_dim := 100;
  c_dropout := 1 # 2;
  c_use_char := true;
  c_use_crf := true;
  c_initial_vocab := Some ["John"];
  c_lower := true;
  c_optimizer := "adam";
  c_nn_type := "GRU"
|}.

(** Settings that [load] does not give back. *)
Definition lstm_settings : Config := {|
  c_char_embedding_dim := 25;
  c_word_lstm_size := 200;
  c_char_lstm_size := 25;
  c_fc_dim := 100;
  c_dropout := 1 # 4;
  c_use_char := false;
  c_use_crf := false;
  c_initial_vocab := None;
  c_lower := false;
  c_optimizer := "sgd";
  c_nn_type := "LSTM"
|}.
Definition lstm_world : World :=
  {| self := set_model (Some Dict.ner) (init 300 lstm_settings);
     fs := ∅; calls := [] |}.

Definition fit_labels_only : M unit :=
  fit Runs.x Runs.y None (Some Runs.y) 1 32 1 None true.

(** What the dictionary trainer learns from [Runs.x] and [Runs.y]. *)
Definition learned : Dict.model :=
  {| Dict.table := [("John", "B-PER"); ("lives", "O"); ("in", "O");
                    ("Paris", "B-LOC")];
     Dict.maxlen := 50 |}.

(** A model that knows no token, and the tags it gives. *)
Definition blank_world : World :=
  Dict.tagging Runs.built {["in.iob" := PickleFile Dict.two_sentences]}.
Definition no_tags (sentence : Sentence) : TagSeq :=
  map (fun _ => "") sentence.

(** A corpus file, and no model. *)
Definition unready_world : World :=
  Dict.fresh {["in.iob" := PickleFile Dict.two_sentences]}.

End Edge.

(** * Properties *)

Section Properties.
Context {C : Collaborators}.

#[local] Arguments path_join : simpl never.
#[local] Arguments weights_file : simpl never.
#[local] Arguments params_file : simpl never.
#[local] Arguments preprocessor_file : simpl never.

Ltac unfold_M :=
  unfold new_calls in *;
  unfold run, result, after, call, lift, raise, emit, get_self,
    get_fs, update_self, put_file, mbind, M_bind, mret, M_ret in *;
  cbn in *.

Ltac log_simpl :=
  cbn; rewrite <- ?app_assoc; rewrite ?drop_app_length; cbn.

(** ** [predict_sentence] and [score] *)

Lemma predict_sentence_result (w : World) (sentence : Sentence) :
  result (predict_sentence sentence) w
  = predict_sentence_outcome (self w) sentence.
Proof.
  unfold predict_sentence, predict_sentence_outcome. unfold_M.
  destruct (p_transform _ _) as [e|x]; cbn; [done|].
  destruct (model (self w)) as [m|]; cbn; [|done].
  destruct (predict m x) as [e|y]; cbn; [done|].
  destruct (p_inverse_transform _ _ _) as [e|[|t ts]]; done.
Qed.

(** C1: on an orchestrator that has adopted no model, [score] raises the
    explicit [OSError] with its message and calls nothing, but
    [predict_sentence] has no such check: it first calls the preprocessor's
    [transform], and then fails on [None.predict] with an [AttributeError]
    (or with the exception of [transform]); it returns no prediction. *)
Theorem no_model_score_predict_sentence
    (w : World) (x_test : list Sentence) (y_test : list TagSeq)
    (sentence : Sentence) :
  model (self w) = None ->
  run (score x_test y_test) w = (inl (OSError no_model_msg), w)
  /\ result (predict_sentence sentence) w
     = match p_transform (p (self w)) [sentence] with
       | inl e => inl (CollabError e)
       | inr _ => inl (AttributeError none_predict_msg)
       end
  /\ new_calls (predict_sentence sentence) w = [Call_transform [sentence]]
  /\ (forall msg, result (predict_sentence sentence) w <> inl (OSError msg))
  /\ (forall tags, result (predict_sentence sentence) w <> inr tags).
Proof.
  intros Hm.
  assert (Hr : result (predict_sentence sentence) w
     = match p_transform (p (self w)) [sentence] with
       | inl e => inl (CollabError e)
       | inr _ => inl (AttributeError none_predict_msg)
       end).
  { rewrite predict_sentence_result. unfold predict_sentence_outcome.
    rewrite Hm. by destruct (p_transform _ _). }
  split; [|split; [exact Hr|split; [|split]]].
  - unfold score. unfold_M. by rewrite Hm.
  - unfold predict_sentence. unfold_M. rewrite Hm.
    destruct (p_transform _ _); log_simpl; done.
  - intros msg. rewrite Hr. by destruct (p_transform _ _).
  - intros tags. rewrite Hr. by destruct (p_transform _ _).
Qed.

(** C5: with a model adopted, [score] transforms [x_test] with the
    orchestrator's preprocessor, predicts, inverse-transforms the
    prediction with the lengths of the sentences of [y_test], and returns
    [f1_score(y_test, y_pred)]; these four calls are made in this order
    and the orchestrator is left as it was. *)
Theorem score_pipeline
    (w : World) (m : Model) (x_test : list Sentence) (y_test : list TagSeq)
    (x : Tensor) (y : Prediction) (y_pred : list TagSeq) :
  model (self w) = Some m ->
  p_transform (p (self w)) x_test = inr x ->
  predict m x = inr y ->
  p_inverse_transform (p (self w)) y (map length y_test) = inr y_pred ->
  result (score x_test y_test) w
    = match f1_score y_test y_pred with
      | inl e => inl (CollabError e)
      | inr f1 => inr f1
      end
  /\ new_calls (score x_test y_test) w
     = [Call_transform x_test; Call_predict m x;
        Call_inverse_transform y (map length y_test);
        Call_f1_score y_test y_pred]
  /\ self (after (score x_test y_test) w) = self w.
Proof.
  intros Hm Hx Hy Hp. unfold score. unfold_M.
  rewrite Hm; cbn. rewrite Hx; cbn. rewrite Hy; cbn. rewrite Hp; cbn.
  destruct (f1_score y_test y_pred); log_simpl; done.
Qed.

(** *** Methods that assign no attribute *)

Lemma keeps_self_ret {A} (a : A) : keeps_self (mret a : M A).
Proof. done. Qed.
Lemma keeps_self_raise {A} (e : exn) : keeps_self (raise e : M A).
Proof. done. Qed.
Lemma keeps_self_emit (ev : Event) : keeps_self (emit ev).
Proof. done. Qed.
Lemma keeps_self_get_self : keeps_self get_self.
Proof. done. Qed.
Lemma keeps_self_get_fs : keeps_self get_fs.
Proof. done. Qed.
Lemma keeps_self_put_file (path : string) (f : File Blob) :
  keeps_self (put_file path f).
Proof. done. Qed.
Lemma keeps_self_lift {A} (r : CErr + A) : keeps_self (lift r).
Proof. by destruct r. Qed.

Lemma keeps_self_bind {A B} (m : M A) (f : A -> M B) :
  keeps_self m -> (forall a, keeps_self (f a)) -> keeps_self (m ≫= f).
Proof.
  intros Hm Hf w. unfold mbind, M_bind. specialize (Hm w).
  destruct (m w) as [[e|a] w1]; cbn in *; [done|].
  by rewrite Hf.
Qed.

Lemma keeps_self_call {A} (ev : Event) (r : CErr + A) :
  keeps_self (call ev r).
Proof.
  apply keeps_self_bind; [apply keeps_self_emit|].
  intros _. apply keeps_self_lift.
Qed.

Lemma keeps_self_for_each {A} (l : list A) (body : A -> M unit) :
  (forall a, keeps_self (body a)) -> keeps_self (for_each l body).
Proof.
  intros Hbody. induction l as [|a l IH]; cbn; [apply keeps_self_ret|].
  apply keeps_self_bind; [apply Hbody|done].
Qed.

Create HintDb keeps.
#[local] Hint Resolve keeps_self_ret keeps_self_raise keeps_self_emit
  keeps_self_get_self keeps_self_get_fs keeps_self_put_file keeps_self_lift
  keeps_self_call : keeps.

Ltac keeps :=
  repeat first
    [ progress auto with keeps
    | apply keeps_self_bind; [|intros ?]
    | apply keeps_self_for_each; intros ?
    | match goal with
      | |- keeps_self (match ?x with _ => _ end) => destruct x
      end ].

Lemma predict_sentence_keeps_self (sentence : Sentence) :
  keeps_self (predict_sentence sentence).
Proof. unfold predict_sentence. keeps. Qed.
#[local] Hint Resolve predict_sentence_keeps_self : keeps.

Lemma score_keeps_self (x_test : list Sentence) (y_test : list TagSeq) :
  keeps_self (score x_test y_test).
Proof. unfold score. keeps. Qed.

Lemma save_keeps_self (model_path : string) : keeps_self (save model_path).
Proof. unfold save. keeps. Qed.

Lemma write_keeps_self (path s : string) : keeps_self (write path s).
Proof. unfold write. keeps. Qed.
#[local] Hint Resolve write_keeps_self : keeps.

Lemma predict_to_iob_keeps_self (input_path output_path : string) :
  keeps_self (predict_to_iob input_path output_path).
Proof.
  unfold predict_to_iob, open_w. keeps.
Qed.

(** The outcome of [predict_sentence] depends on the world through the
    model and the preprocessor only. *)
Lemma predict_sentence_reads (w w' : World) (sentence : Sentence) :
  model (self w') = model (self w) -> p (self w') = p (self w) ->
  result (predict_sentence sentence) w' = result (predict_sentence sentence) w.
Proof.
  intros Hm Hp. rewrite !predict_sentence_result.
  unfold predict_sentence_outcome. by rewrite Hm, Hp.
Qed.


(** ** [fit] *)

Section Fit.
Variables (x_train : list Sentence) (y_train : list TagSeq).
Variables (x_valid : option (list Sentence)) (y_valid : option (list TagSeq)).
Variables (epochs batch_size verbose : Z) (callbacks : option Callbacks).
Variable (shuffle : bool).

Let the_fit : M unit :=
  fit x_train y_train x_valid y_valid epochs batch_size verbose callbacks
      shuffle.
Let args : TrainArgs Callbacks :=
  {| t_x_train := x_train; t_y_train := y_train;
     t_x_valid := x_valid; t_y_valid := y_valid;
     t_epochs := epochs; t_batch_size := batch_size;
     t_verbose := verbose; t_callbacks := callbacks;
     t_shuffle := shuffle |}.

(** One goal per place where [fit] can stop. *)
Ltac fit_cases w :=
  subst the_fit args; unfold fit, adopts; unfold_M;
  destruct w as [s f l]; cbn;
  destruct (p_fit (p s) x_train y_train) as [[e|] p1] eqn:Hfit; cbn;
  [|destruct (BiLSTMCRF_build _) as [e|[mdl loss]] eqn:Hbuild; cbn;
    [|destruct (compile mdl loss _) as [e|mdl'] eqn:Hcompile; cbn;
      [|destruct (train mdl' _ _) as [e|trainer] eqn:Htrain; cbn;
        [|destruct (truthy x_train && truthy_opt y_valid) eqn:Hadopt; cbn]]]];
  rewrite <- ?app_assoc, ?drop_app_length; cbn.



(** C4: after a [fit] that returns, if [x_train] and [y_valid] are both
    non-empty the model attribute is the trainer's [best_model] and
    [best_report] its [best_model_report]; otherwise [fit] assigns neither:
    both are what they were before the call. *)
Theorem fit_adoption (w : World) :
  result the_fit w = inr tt ->
  (adopts x_train y_valid = true ->
     exists mdl v trainer,
       In (Call_train mdl v args) (new_calls the_fit w)
       /\ train mdl v args = inr trainer
       /\ model (self (after the_fit w)) = best_model trainer
       /\ best_report (self (after the_fit w))
          = Some (best_model_report trainer))
  /\ (adopts x_train y_valid = false ->
      model (self (after the_fit w)) = model (self w)
      /\ best_report (self (after the_fit w)) = best_report (self w)).
Proof.
  fit_cases w; intros Hr; try discriminate; (split; [|done]); try done.
  intros _. exists mdl', p1, trainer. repeat split; cbn; auto.
Qed.

End Fit.

(** ** [save] and [load] *)

(** Two names in one directory are one path only if they are one name. *)
Lemma path_join_inj (d b c : string) :
  startswith_sep b = false -> startswith_sep c = false ->
  path_join d b = path_join d c -> b = c.
Proof.
  unfold path_join. intros -> ->.
  destruct (String.eqb d "" || endswith_sep d); intros H.
  - by apply (inj (String.append d)) in H.
  - apply (inj (String.append d)) in H. by apply (inj (String.append "/")) in H.
Qed.

Lemma weights_not_params (d : string) : weights_file d <> params_file d.
Proof. intros H. by apply path_join_inj in H. Qed.
Lemma weights_not_preprocessor (d : string) :
  weights_file d <> preprocessor_file d.
Proof. intros H. by apply path_join_inj in H. Qed.
Lemma params_not_preprocessor (d : string) :
  params_file d <> preprocessor_file d.
Proof. intros H. by apply path_join_inj in H. Qed.

(** The outcome of [predict_sentence] is a function of the model and the
    preprocessor, through what they compute. *)
Lemma predict_sentence_outcome_ext (s s' : Sequence) (m m' : Model)
    (sentence : Sentence) :
  model s = Some m -> model s' = Some m' ->
  (forall x, predict m' x = predict m x) ->
  (forall x, p_transform (p s') x = p_transform (p s) x) ->
  (forall y l,
     p_inverse_transform (p s') y l = p_inverse_transform (p s) y l) ->
  predict_sentence_outcome s' sentence = predict_sentence_outcome s sentence.
Proof.
  intros Hm Hm' Hp Ht Hi. unfold predict_sentence_outcome.
  rewrite Hm, Hm', Ht. destruct (p_transform _ _) as [?|x]; [done|].
  rewrite Hp. destruct (predict m x) as [?|y]; [done|]. by rewrite Hi.
Qed.

Lemma new_calls_app {A} (m : M A) (w : World) (k : list Event) :
  calls (after m w) = calls w ++ k -> new_calls m w = k.
Proof. unfold new_calls. intros ->. apply drop_app_length. Qed.

(** A [save] whose two collaborator calls go through. *)
Lemma save_run (w : World) (d : string) (b wb hb : Blob) :
  p_save (p (self w)) = inr b ->
  save_model (model (self w)) = inr (wb, hb) ->
  run (save d) w
  = (inr tt,
     {| self := self w;
        fs := <[params_file d := PickleFile hb]>
                (<[weights_file d := PickleFile wb]>
                   (<[preprocessor_file d := PickleFile b]> (fs w)));
        calls := calls w
                 ++ [Call_p_save (preprocessor_file d);
                     Call_save_model (model (self w)) (weights_file d)
                                     (params_file d)] |}).
Proof.
  intros Hb Hm. unfold save. unfold_M. rewrite Hb; cbn. rewrite Hm; cbn.
  unfold with_fs, with_calls; cbn. by rewrite <- app_assoc.
Qed.

(** A [load] that finds its three files and whose loaders go through. *)
Lemma load_run (w : World) (d : string) (e : Embedding) (b wb hb : Blob)
    (m : Model) (v : VectorTransformer) :
  fs w !! weights_file d = Some (PickleFile wb) ->
  fs w !! params_file d = Some (PickleFile hb) ->
  fs w !! preprocessor_file d = Some (PickleFile b) ->
  load_model wb hb = inr m ->
  p_load b e = inr v ->
  run (load d e) w
  = (inr (set_p v (set_model (Some m) (init e defaults))),
     with_calls (calls w
                 ++ [Call_load_model (weights_file d) (params_file d);
                     Call_p_load (preprocessor_file d) e]) w).
Proof.
  intros Hw Hh Hb Hm Hv. unfold load, read_pickle. unfold_M.
  rewrite Hw; cbn. rewrite Hh; cbn. rewrite Hm; cbn. rewrite Hb; cbn.
  rewrite Hv; cbn.
  unfold with_calls; cbn. by rewrite <- app_assoc.
Qed.

(** C9: [save] looks at no model.  With the model attribute [None] it
    still begins by saving the preprocessor, and when that went through it
    writes the preprocessor file and passes [None] to [save_model] with the
    weights and params paths; its outcome is that of [save_model], never
    the [OSError] of [score]. *)
Theorem save_without_model (w : World) (d : string) :
  model (self w) = None ->
  (exists rest,
     new_calls (save d) w = Call_p_save (preprocessor_file d) :: rest)
  /\ (forall msg, result (save d) w <> inl (OSError msg))
  /\ (forall b, p_save (p (self w)) = inr b ->
      new_calls (save d) w
        = [Call_p_save (preprocessor_file d);
           Call_save_model None (weights_file d) (params_file d)]
      /\ fs (after (save d) w) !! preprocessor_file d = Some (PickleFile b)
      /\ result (save d) w
         = match save_model None with
           | inl e => inl (CollabError e)
           | inr _ => inr tt
           end).
Proof.
  intros Hm.
  destruct (p_save (p (self w))) as [e|b] eqn:Hb.
  { unfold save. unfold_M. rewrite Hb; cbn. log_simpl.
    split; [eauto|]. split; [done|]. intros ? [=]. }
  destruct (save_model None) as [e|[wb hb]] eqn:Hs.
  - unfold save. unfold_M. rewrite Hb, Hm; cbn. rewrite Hs; log_simpl.
    split; [eauto|]. split; [done|]. intros ? [= <-].
    split; [done|]. split; [|done]. apply lookup_insert_eq.
  - rewrite <- Hm in Hs. pose proof (save_run w d b wb hb Hb Hs) as Hrun.
    unfold run in Hrun. unfold result, after.
    rewrite (new_calls_app (save d) w
               [Call_p_save (preprocessor_file d);
                Call_save_model None (weights_file d) (params_file d)])
      by (unfold after; rewrite Hrun, Hm; done).
    rewrite Hrun; cbn.
    split; [eauto|]. split; [done|]. intros ? [= <-].
    split; [done|]. split; [|done].
    rewrite lookup_insert_ne by apply params_not_preprocessor.
    rewrite lookup_insert_ne by apply weights_not_preprocessor.
    apply lookup_insert_eq.
Qed.


(** ** [predict_to_iob] *)

Lemma string_app_cons (ch : ascii) (a b : string) :
  String ch a +:+ b = String ch (a +:+ b).
Proof. reflexivity. Qed.

Lemma string_app_assoc (a b c : string) : (a +:+ b) +:+ c = a +:+ b +:+ c.
Proof.
  induction a as [|ch a IH]; [done|]. rewrite !string_app_cons. by rewrite IH.
Qed.

Lemma string_app_nil_r (a : string) : a +:+ "" = a.
Proof.
  induction a as [|ch a IH]; [done|]. rewrite string_app_cons. by rewrite IH.
Qed.

(** What [predict_to_iob] writes for a token is that line when the tag is
    empty, and that line short of its newline otherwise. *)
Lemma to_write_iob_line (token prediction : string) (ctags : CTags) :
  iob_line token prediction ctags
  = if String.eqb prediction "" then to_write token prediction ctags
    else to_write token prediction ctags +:+ nl.
Proof.
  unfold iob_line, to_write. destruct (String.eqb prediction ""); cbn.
  - done.
  - by rewrite !string_app_assoc.
Qed.

(** The inner loop: one [write] per triple of the [zip], in order, each
    appended to the file; nothing else changes. *)
Lemma write_tokens_run (path : string) (l : list (string * (string * CTags)))
    (w : World) (old : string) :
  fs w !! path = Some (TextFile old) ->
  run (for_each l (fun '(token, (prediction, ctags)) =>
                     write path (to_write token prediction ctags))) w
  = (inr tt,
     {| self := self w;
        fs := <[path := TextFile (old +:+ tokens_text l)]> (fs w);
        calls :=
          calls w
          ++ map (fun '(token, (prediction, ctags)) =>
                    File_write path (to_write token prediction ctags)) l |}).
Proof.
  revert w old. induction l as [|[token [prediction ctags]] l IH];
    intros w old Hold; cbn.
  - unfold run. unfold_M. rewrite string_app_nil_r, app_nil_r.
    rewrite insert_id by done. by destruct w.
  - unfold run, write in *. unfold_M. rewrite Hold; cbn.
    erewrite IH by (cbn; apply lookup_insert_eq). cbn.
    rewrite insert_insert_eq, string_app_assoc, <- app_assoc. done.
Qed.

(** The number of token writes for a sentence is the length of the
    shortest of the three sequences. *)
Lemma write_tokens_count (path : string) (sentence predictions : list string)
    (sent_ctags : list CTags) (w : World) (old : string) :
  fs w !! path = Some (TextFile old) ->
  length (new_calls
            (for_each (zip sentence (zip predictions sent_ctags))
               (fun '(token, (prediction, ctags)) =>
                  write path (to_write token prediction ctags))) w)
  = (length sentence `min` (length predictions `min` length sent_ctags))%nat.
Proof.
  intros Hold.
  pose proof (write_tokens_run path (zip sentence (zip predictions sent_ctags))
                w old Hold) as H.
  erewrite new_calls_app by (unfold after, run in *; by rewrite H).
  by rewrite length_map, !length_zip_with.
Qed.

(** ** Further properties of [fit] *)

Section FitMore.
Variables (x_train : list Sentence) (y_train : list TagSeq).
Variables (x_valid : option (list Sentence)) (y_valid : option (list TagSeq)).
Variables (epochs batch_size verbose : Z) (callbacks : option Callbacks).
Variable (shuffle : bool).

Let the_fit : M unit :=
  fit x_train y_train x_valid y_valid epochs batch_size verbose callbacks
      shuffle.
Let args : TrainArgs Callbacks :=
  {| t_x_train := x_train; t_y_train := y_train;
     t_x_valid := x_valid; t_y_valid := y_valid;
     t_epochs := epochs; t_batch_size := batch_size;
     t_verbose := verbose; t_callbacks := callbacks;
     t_shuffle := shuffle |}.

Ltac fit_stops w :=
  subst the_fit args; unfold fit, adopts; unfold_M;
  destruct w as [s f l]; cbn;
  destruct (p_fit (p s) x_train y_train) as [[e|] p1]; cbn;
  [|destruct (BiLSTMCRF_build _) as [e|[mdl loss]]; cbn;
    [|destruct (compile mdl loss _) as [e|mdl']; cbn;
      [|destruct (train mdl' _ _) as [e|trainer]; cbn;
        [|destruct (truthy x_train && truthy_opt y_valid); cbn]]]].

(** X2: in every run of [fit], returning or not and adopting or not, the
    preprocessor the orchestrator holds afterwards is the one its [fit]
    left, and the settings, and [tagger], are those from before. *)
Theorem fit_refits_preprocessor (w : World) :
  p (self (after the_fit w)) = (p_fit (p (self w)) x_train y_train).2
  /\ config_of (self (after the_fit w)) = config_of (self w)
  /\ tagger (self (after the_fit w)) = tagger (self w).
Proof. fit_stops w; done. Qed.

(** X1: orchestrators constructed on one embedding with settings that differ
    only in [char_embedding_dim], [initial_vocab] and [lower] are fitted
    alike: the same outcome, the same calls with the same arguments, the
    same model and preprocessor afterwards. *)
Theorem fit_ignores_unused_settings (e : Embedding) (c c' : Config)
    (f : gmap string (File Blob)) (l : list Event) :
  same_for_fit c c' ->
  let w := {| self := init e c; fs := f; calls := l |} in
  let w' := {| self := init e c'; fs := f; calls := l |} in
  result the_fit w = result the_fit w'
  /\ new_calls the_fit w = new_calls the_fit w'
  /\ model (self (after the_fit w)) = model (self (after the_fit w'))
  /\ p (self (after the_fit w)) = p (self (after the_fit w')).
Proof.
  destruct c, c'. unfold same_for_fit; cbn.
  intros (-> & -> & -> & -> & -> & -> & -> & ->).
  subst the_fit args; unfold fit, adopts, init, build_args; unfold_M.
  destruct (p_fit _ x_train y_train) as [[e0|] p1]; cbn; [done|].
  destruct (BiLSTMCRF_build _) as [e0|[mdl loss]]; cbn; [done|].
  destruct (compile mdl loss _) as [e0|mdl']; cbn; [done|].
  destruct (train mdl' _ _) as [e0|trainer]; cbn; [done|].
  destruct (truthy x_train && truthy_opt y_valid); done.
Qed.

(** X3: when the test [x_train and y_valid] passes, [fit] assigns the
    trainer's [best_model] whatever it is: if the trainer has none, an
    orchestrator that held a model holds none after [fit], and [score]
    then raises its [OSError]. *)
Theorem fit_can_drop_model (w : World) (p1 : VectorTransformer)
    (mdl mdl' : Model) (loss : Loss) (trainer : Trainer Model Report) :
  p_fit (p (self w)) x_train y_train = (None, p1) ->
  BiLSTMCRF_build (build_args (set_p p1 (self w))) = inr (mdl, loss) ->
  compile mdl loss (optimizer (self w)) = inr mdl' ->
  train mdl' p1 args = inr trainer ->
  adopts x_train y_valid = true ->
  best_model trainer = None ->
  result the_fit w = inr tt
  /\ model (self (after the_fit w)) = None
  /\ forall x_test y_test,
       run (score x_test y_test) (after the_fit w)
       = (inl (OSError no_model_msg), after the_fit w).
Proof.
  intros Hfit Hbuild Hcompile Htrain Hadopt Hbest.
  assert (Hrun : result the_fit w = inr tt
                 /\ model (self (after the_fit w)) = None).
  { subst the_fit args; unfold fit in *; unfold_M.
    destruct w as [s f l]; cbn in *.
    rewrite Hfit; cbn. rewrite Hbuild; cbn. rewrite Hcompile; cbn.
    rewrite Htrain; cbn. rewrite Hadopt; cbn. by rewrite Hbest. }
  destruct Hrun as [Hres Hmodel]. split; [done|]. split; [done|].
  intros x_test y_test. unfold run, score. unfold_M. by rewrite Hmodel.
Qed.

(** X4: after a [fit] that adopts a best model, [predict_sentence] goes
    through the preprocessor as [fit] left it and through that model: it
    returns the first sequence the fitted preprocessor decodes from the
    best model's prediction. *)
Theorem fit_then_predict_sentence (w : World) (p1 : VectorTransformer)
    (mdl mdl' best : Model) (loss : Loss) (trainer : Trainer Model Report)
    (sentence : Sentence) (x : Tensor) (y : Prediction) (tags : TagSeq)
    (others : list TagSeq) :
  p_fit (p (self w)) x_train y_train = (None, p1) ->
  BiLSTMCRF_build (build_args (set_p p1 (self w))) = inr (mdl, loss) ->
  compile mdl loss (optimizer (self w)) = inr mdl' ->
  train mdl' p1 args = inr trainer ->
  adopts x_train y_valid = true ->
  best_model trainer = Some best ->
  p_transform p1 [sentence] = inr x ->
  predict best x = inr y ->
  p_inverse_transform p1 y [length sentence] = inr (tags :: others) ->
  result (the_fit;; predict_sentence sentence) w = inr tags.
Proof.
  intros Hfit Hbuild Hcompile Htrain Hadopt Hbest Hx Hy Htags.
  assert (Hrun : exists l',
            the_fit w
            = (inr tt,
               {| self := set_best_report (Some (best_model_report trainer))
                            (set_model (Some best) (set_p p1 (self w)));
                  fs := fs w; calls := l' |})).
  { subst the_fit args; unfold fit in *; unfold_M.
    destruct w as [s f l]; cbn in *.
    rewrite Hfit; cbn. rewrite Hbuild; cbn. rewrite Hcompile; cbn.
    rewrite Htrain; cbn. rewrite Hadopt; cbn. rewrite Hbest. eauto. }
  destruct Hrun as [l' Hrun].
  unfold result, mbind, M_bind. rewrite Hrun.
  fold (result (predict_sentence sentence)
          {| self := set_best_report (Some (best_model_report trainer))
                       (set_model (Some best) (set_p p1 (self w)));
             fs := fs w; calls := l' |}).
  rewrite predict_sentence_result. unfold predict_sentence_outcome; cbn.
  by rewrite Hx, Hy, Htags.
Qed.

End FitMore.

(** ** Further properties of [save] and [load] *)

(** X5: an orchestrator that [load] returns has a model, no best report, and
    the default settings of [__init__], whatever the settings of the
    orchestrator that was saved. *)
Theorem load_has_default_settings (w : World) (d : string) (e : Embedding)
    (loaded : Sequence) :
  result (load d e) w = inr loaded ->
  config_of loaded = defaults
  /\ best_report loaded = None
  /\ tagger loaded = None
  /\ exists m, model loaded = Some m.
Proof.
  unfold load, read_pickle. unfold_M.
  destruct (fs w !! weights_file d) as [[?|wb]|]; cbn; try done.
  destruct (fs w !! params_file d) as [[?|hb]|]; cbn; try done.
  destruct (load_model wb hb) as [?|m]; cbn; try done.
  destruct (fs w !! preprocessor_file d) as [[?|b]|]; cbn; try done.
  destruct (p_load b e) as [?|v]; cbn; try done.
  intros [= <-]. cbn. eauto.
Qed.

(** X6: [load] asks for the model first and for the preprocessor only when
    the model came back; it assigns nothing to the object it is called
    from and writes no file. *)
Theorem load_model_first (w : World) (d : string) (e : Embedding) :
  self (after (load d e) w) = self w
  /\ fs (after (load d e) w) = fs w
  /\ (exists rest,
        new_calls (load d e) w
        = Call_load_model (weights_file d) (params_file d) :: rest)
  /\ (In (Call_p_load (preprocessor_file d) e) (new_calls (load d e) w) ->
      exists wb hb m,
        fs w !! weights_file d = Some (PickleFile wb)
        /\ fs w !! params_file d = Some (PickleFile hb)
        /\ load_model wb hb = inr m).
Proof.
  unfold load, read_pickle. unfold_M.
  destruct (fs w !! weights_file d) as [[?|wb]|]; log_simpl;
    try (repeat split; eauto; by intros [[=]|[]]).
  destruct (fs w !! params_file d) as [[?|hb]|]; log_simpl;
    try (repeat split; eauto; by intros [[=]|[]]).
  destruct (load_model wb hb) as [?|m] eqn:Hload; log_simpl;
    try (repeat split; eauto; by intros [[=]|[]]).
  destruct (fs w !! preprocessor_file d) as [[?|b]|]; log_simpl;
    try (destruct (p_load b e); log_simpl); repeat split; eauto 10.
Qed.



Lemma endswith_sep_app (d : string) : endswith_sep (d +:+ "/") = true.
Proof.
  induction d as [|c [|c' r] IH]; [done|done|].
  rewrite string_app_cons. rewrite string_app_cons in IH.
  exact IH.
Qed.

Lemma path_join_trailing_sep (d b : string) :
  d <> "" -> endswith_sep d = false ->
  path_join (d +:+ "/") b = path_join d b.
Proof.
  intros Hd Hsep. unfold path_join.
  destruct (startswith_sep b); [done|].
  rewrite endswith_sep_app, orb_true_r, Hsep.
  destruct d; [done|]. cbn. by rewrite string_app_assoc.
Qed.

(** X9: a directory named with a slash at its end and the same directory
    named without are one to [save] and to [load]: the same files are
    written and read. *)
Theorem trailing_slash_is_immaterial (w : World) (d : string)
    (e : Embedding) :
  d <> "" -> endswith_sep d = false ->
  run (save (d +:+ "/")) w = run (save d) w
  /\ run (load (d +:+ "/") e) w = run (load d e) w.
Proof.
  intros Hd Hsep. unfold save, load, weights_file, params_file,
    preprocessor_file.
  by rewrite !path_join_trailing_sep.
Qed.

(** ** Further properties of [predict_to_iob] *)

Lemma run_bind {A B} (m : M A) (f : A -> M B) (w : World) :
  run (m ≫= f) w
  = match run m w with
    | (inl e, w') => (inl e, w')
    | (inr a, w') => run (f a) w'
    end.
Proof. reflexivity. Qed.

Lemma predict_sentence_run (w : World) (sentence : Sentence) :
  exists l,
    run (predict_sentence sentence) w
    = (predict_sentence_outcome (self w) sentence,
       with_calls (calls w ++ l) w).
Proof.
  unfold predict_sentence, predict_sentence_outcome. unfold_M.
  destruct w as [s f l]; unfold with_calls; cbn.
  destruct (p_transform _ _) as [e|x]; cbn; [eauto|].
  destruct (model s) as [m|]; cbn; [|eauto].
  destruct (predict m x) as [e|y]; cbn.
  { rewrite <- app_assoc. eauto. }
  destruct (p_inverse_transform _ _ _) as [e|[|t ts]]; cbn;
    rewrite <- !app_assoc; eauto.
Qed.

Lemma write_run (path s : string) (w : World) (old : string) :
  fs w !! path = Some (TextFile old) ->
  run (write path s) w
  = (inr tt,
     {| self := self w;
        fs := <[path := TextFile (old +:+ s)]> (fs w);
        calls := calls w ++ [File_write path s] |}).
Proof. intros Hold. unfold write. unfold_M. by rewrite Hold. Qed.

(** The loop over the sentences, started on a file that holds [old]. *)
Lemma export_loop (o : string) (pairs : list (Sentence * list CTags)) :
  forall (w : World) (old text : string) (err : option exn),
    fs w !! o = Some (TextFile old) ->
    export_blocks (self w) pairs = (text, err) ->
    exists l,
      run (for_each pairs (fun '(sentence, sent_ctags) =>
             predictions ← predict_sentence sentence;
             for_each (zip sentence (zip predictions sent_ctags))
               (fun '(token, (prediction, ctags)) =>
                  write o (to_write token prediction ctags));;
             write o nl)) w
      = (outcome_of err,
         {| self := self w;
            fs := <[o := TextFile (old +:+ text)]> (fs w);
            calls := calls w ++ l |}).
Proof.
  induction pairs as [|[sentence sent_ctags] rest IH];
    intros w old text err Hold Hblocks; cbn in Hblocks.
  - injection Hblocks as <- <-. exists []. cbn. unfold run, mret, M_ret.
    rewrite string_app_nil_r, app_nil_r, insert_id by done. by destruct w.
  - cbn [for_each]. rewrite !run_bind.
    destruct (predict_sentence_run w sentence) as [l1 ->].
    destruct (predict_sentence_outcome (self w) sentence)
      as [e|predictions].
    { injection Hblocks as <- <-. exists l1. cbn.
      rewrite string_app_nil_r, insert_id by done. done. }
    destruct (export_blocks (self w) rest) as [text' err'] eqn:Hrest.
    injection Hblocks as <- <-.
    rewrite run_bind, write_tokens_run with (old := old) by done. cbn.
    erewrite write_run by (cbn; apply lookup_insert_eq). cbn.
    edestruct IH as [l2 ->]; [|exact Hrest|].
    { cbn. apply lookup_insert_eq. }
    cbn. rewrite !insert_insert_eq, !string_app_assoc, <- !app_assoc.
    eauto.
Qed.

(** [predict_to_iob] up to its loop. *)
Lemma predict_to_iob_run (w : World) (i o : string) :
  run (predict_to_iob i o) w
  = let w1 := {| self := self w;
                 fs := <[o := TextFile ""]> (fs w);
                 calls := calls w ++ [Open_w o; Call_load_data i] |} in
    match load_data i (<[o := TextFile ""]> (fs w)) with
    | inl e => (inl (CollabError e), w1)
    | inr (x, _, all_ctags) =>
        run (for_each (zip x all_ctags) (fun '(sentence, sent_ctags) =>
               predictions ← predict_sentence sentence;
               for_each (zip sentence (zip predictions sent_ctags))
                 (fun '(token, (prediction, ctags)) =>
                    write o (to_write token prediction ctags));;
               write o nl)) w1
    end.
Proof.
  unfold predict_to_iob, open_w, run. unfold_M.
  unfold with_fs, with_calls; cbn. rewrite <- app_assoc.
  by destruct (load_data _ _) as [e|[[x y] all_ctags]].
Qed.

(** X10: what [predict_to_iob] leaves in the output file, in full: the text of
    the pairs of sentences and columns that [zip] forms, up to the first
    sentence whose prediction raises, with which the export raises too.
    The gold tags are not looked at, the other files and the orchestrator
    are as before. *)
Theorem export_text (w : World) (i o : string) (x : list Sentence)
    (y : list TagSeq) (all_ctags : list (list CTags)) (text : string)
    (err : option exn) :
  load_data i (<[o := TextFile ""]> (fs w)) = inr (x, y, all_ctags) ->
  export_blocks (self w) (zip x all_ctags) = (text, err) ->
  result (predict_to_iob i o) w = outcome_of err
  /\ fs (after (predict_to_iob i o) w) = <[o := TextFile text]> (fs w)
  /\ self (after (predict_to_iob i o) w) = self w.
Proof.
  intros Hdata Hblocks. unfold result, after.
  change (predict_to_iob i o w) with (run (predict_to_iob i o) w).
  rewrite predict_to_iob_run, Hdata. cbv zeta.
  edestruct (export_loop o (zip x all_ctags)) as [l ->];
    [|exact Hblocks|].
  { cbn. apply lookup_insert_eq. }
  cbn. by rewrite insert_insert_eq.
Qed.

(** X11: what the output path held before has no part in an export: the file
    is emptied before the corpus is read.  With the input path for output
    path, the corpus reader is given the emptied file. *)
Theorem export_forgets_output (w : World) (i o : string) (f0 : File Blob) :
  run (predict_to_iob i o) (with_fs (<[o := f0]> (fs w)) w)
  = run (predict_to_iob i o) w.
Proof.
  rewrite !predict_to_iob_run. cbn. by rewrite insert_insert_eq.
Qed.

(** X12: when the corpus cannot be read, [predict_to_iob] raises what
    [load_data] raised, after it has created or emptied the output file;
    no prediction is asked for. *)
Theorem export_unreadable_corpus (w : World) (i o : string) (err : CErr) :
  load_data i (<[o := TextFile ""]> (fs w)) = inl err ->
  run (predict_to_iob i o) w
  = (inl (CollabError err),
     {| self := self w;
        fs := <[o := TextFile ""]> (fs w);
        calls := calls w ++ [Open_w o; Call_load_data i] |}).
Proof.
  intros Hdata. by rewrite predict_to_iob_run, Hdata.
Qed.

(** X13: [predict_to_iob] does not look for a model either.  Without one, an
    empty corpus is exported as an empty file and the call returns; with
    a first sentence, the call raises as [predict_sentence] does on it,
    and the output file is left empty. *)
Theorem export_without_model (w : World) (i o : string) (x : list Sentence)
    (y : list TagSeq) (all_ctags : list (list CTags)) :
  model (self w) = None ->
  load_data i (<[o := TextFile ""]> (fs w)) = inr (x, y, all_ctags) ->
  result (predict_to_iob i o) w
  = match zip x all_ctags with
    | [] => inr tt
    | (sentence, _) :: _ =>
        match p_transform (p (self w)) [sentence] with
        | inl e => inl (CollabError e)
        | inr _ => inl (AttributeError none_predict_msg)
        end
    end
  /\ fs (after (predict_to_iob i o) w) = <[o := TextFile ""]> (fs w).
Proof.
  intros Hm Hdata.
  destruct (zip x all_ctags) as [|[sentence sent_ctags] rest] eqn:Hzip.
  - destruct (export_text w i o x y all_ctags "" None Hdata)
      as (Hres & Hfs & _); [by rewrite Hzip|done].
  - assert (exists e,
              predict_sentence_outcome (self w) sentence = inl e
              /\ inl e = match p_transform (p (self w)) [sentence] with
                         | inl e => inl (CollabError e)
                         | inr _ =>
                             @inl exn unit (AttributeError none_predict_msg)
                         end) as (e & He & <-).
    { unfold predict_sentence_outcome. rewrite Hm.
      destruct (p_transform _ _); eauto. }
    destruct (export_text w i o x y all_ctags "" (Some e) Hdata)
      as (Hres & Hfs & _); [|done].
    rewrite Hzip; cbn. by rewrite He.
Qed.

Lemma zip_middle_Forall (P : string -> Prop)
    (sentence predictions : list string) (sent_ctags : list CTags) :
  Forall P predictions ->
  Forall (fun '(_, (prediction, _)) => P prediction)
         (zip sentence (zip predictions sent_ctags)).
Proof.
  intros HP. revert sentence sent_ctags.
  induction HP as [|q qs Hq _ IH]; intros [|t ts] [|c cs]; cbn; auto.
Qed.

Lemma tokens_text_untagged (block : list (string * (string * CTags)))
    (acc : string) :
  Forall (fun '(_, (prediction, _)) => prediction = "") block ->
  tokens_text block +:+ acc
  = foldr (fun '(token, (prediction, ctags)) acc' =>
             iob_line token prediction ctags +:+ acc') acc block.
Proof.
  induction 1 as [|[token [prediction ctags]] block Hp _ IH]; [done|].
  subst prediction.
  change (tokens_text ((token, ("", ctags)) :: block))
    with (to_write token "" ctags +:+ tokens_text block).
  cbn [foldr]. by rewrite string_app_assoc, IH, to_write_iob_line.
Qed.

(** X14: when the model leaves every token of the corpus untagged, the export
    returns and the output file holds the text the format asks for: for
    each sentence a line [token columns O] per token, then an empty
    line. *)
Theorem export_of_untagged (w : World) (i o : string) (x : list Sentence)
    (y : list TagSeq) (all_ctags : list (list CTags))
    (tags_of : Sentence -> TagSeq) :
  load_data i (<[o := TextFile ""]> (fs w)) = inr (x, y, all_ctags) ->
  Forall (fun '(sentence, _) =>
            predict_sentence_outcome (self w) sentence
            = inr (tags_of sentence)
            /\ Forall (fun tag => tag = "") (tags_of sentence))
         (zip x all_ctags) ->
  result (predict_to_iob i o) w = inr tt
  /\ fs (after (predict_to_iob i o) w) !! o
     = Some (TextFile
               (iob_text (map (fun '(sentence, sent_ctags) =>
                                 zip sentence
                                     (zip (tags_of sentence) sent_ctags))
                              (zip x all_ctags)))).
Proof.
  intros Hdata Hall.
  assert (Hblocks : export_blocks (self w) (zip x all_ctags)
    = (iob_text (map (fun '(sentence, sent_ctags) =>
                        zip sentence (zip (tags_of sentence) sent_ctags))
                     (zip x all_ctags)), None)).
  { induction Hall as [|[sentence sent_ctags] rest [Hs Hempty] _ IH];
      [done|].
    cbn. rewrite Hs, IH. f_equal. unfold iob_text.
    apply (tokens_text_untagged _ _
             (zip_middle_Forall (fun tag => tag = "") _ _ _ Hempty)). }
  destruct (export_text w i o x y all_ctags _ None Hdata Hblocks)
    as (Hres & Hfs & _).
  split; [exact Hres|]. rewrite Hfs. apply lookup_insert_eq.
Qed.

End Properties.

(** * The wrapper run on the dictionary tagger *)

Lemma no_model_score_predict_sentence_run :
  model (self (Dict.fresh ∅)) = None
  /\ run (score Runs.x Runs.y) (Dict.fresh ∅)
     = (inl (OSError no_model_msg), Dict.fresh ∅)
  /\ result (predict_sentence Runs.sentence) (Dict.fresh ∅)
     = inl (AttributeError none_predict_msg)
  /\ new_calls (predict_sentence Runs.sentence) (Dict.fresh ∅)
     = [Call_transform [Runs.sentence]].
Proof.
  split; [reflexivity|].
  destruct (no_model_score_predict_sentence (Dict.fresh ∅) Runs.x Runs.y
              Runs.sentence eq_refl) as (Hscore & Hpredict & Hcalls & _).
  split; [exact Hscore|]. split; [exact Hpredict|exact Hcalls].
Defined.

Lemma score_pipeline_run :
  model (self (Dict.tagging Dict.ner ∅)) = Some Dict.ner
  /\ result (score Runs.x Runs.y) (Dict.tagging Dict.ner ∅)
     = inr (4%nat, 4%nat)
  /\ new_calls (score Runs.x Runs.y) (Dict.tagging Dict.ner ∅)
     = [Call_transform Runs.x; Call_predict Dict.ner Runs.x;
        Call_inverse_transform Runs.y [4%nat]; Call_f1_score Runs.y Runs.y].
Proof.
  split; [reflexivity|].
  destruct (score_pipeline (Dict.tagging Dict.ner ∅) Dict.ner Runs.x Runs.y
              Runs.x Runs.y Runs.y eq_refl eq_refl eq_refl eq_refl)
    as (Hresult & Hcalls & _).
  split; [exact Hresult|exact Hcalls].
Defined.



(** Without validation labels the trainer is run and leaves a trained
    model, but the orchestrator's model is still [None]. *)
Lemma fit_without_validation_keeps_None :
  result Runs.fit_plain (Dict.fresh ∅) = inr tt
  /\ exists trainer,
       In (Call_train Runs.built Runs.fitted Runs.plain_args)
          (new_calls Runs.fit_plain (Dict.fresh ∅))
       /\ train Runs.built Runs.fitted Runs.plain_args = inr trainer
       /\ model (self (after Runs.fit_plain (Dict.fresh ∅))) = None
       /\ model (self (after Runs.fit_plain (Dict.fresh ∅)))
          <> Some (current_model trainer).
Proof.
  split; [reflexivity|]. eexists. split; [|split; [reflexivity|]].
  - vm_compute. do 3 right. left. reflexivity.
  - split; [reflexivity|discriminate].
Qed.

Lemma fit_adoption_run :
  result Runs.fit_validated (Dict.fresh ∅) = inr tt
  /\ adopts Runs.x (Some Runs.y) = true
  /\ exists mdl v trainer,
       In (Call_train mdl v Runs.validated_args)
          (new_calls Runs.fit_validated (Dict.fresh ∅))
       /\ train mdl v Runs.validated_args = inr trainer
       /\ model (self (after Runs.fit_validated (Dict.fresh ∅)))
          = best_model trainer
       /\ best_report (self (after Runs.fit_validated (Dict.fresh ∅)))
          = Some (best_model_report trainer).
Proof.
  split; [reflexivity|]. split; [reflexivity|].
  exact (proj1 (fit_adoption Runs.x Runs.y (Some Runs.x) (Some Runs.y) 1 32 1
                  None true (Dict.fresh ∅) eq_refl) eq_refl).
Defined.


Lemma save_without_model_run :
  model (self (Dict.fresh ∅)) = None
  /\ new_calls (save "models/ner") (Dict.fresh ∅)
     = [Call_p_save "models/ner/preprocessor.pkl";
        Call_save_model None "models/ner/weights.pkl" "models/ner/params.pkl"]
  /\ fs (after (save "models/ner") (Dict.fresh ∅))
       !! "models/ner/preprocessor.pkl"
     = Some (PickleFile (Dict.B_pre true []))
  /\ result (save "models/ner") (Dict.fresh ∅)
     = inl (CollabError "no model to save").
Proof.
  split; [reflexivity|].
  destruct (save_without_model (Dict.fresh ∅) "models/ner" eq_refl)
    as (_ & _ & Hsaved).
  exact (Hsaved (Dict.B_pre true []) eq_refl).
Defined.


(** C2: on the two sentences [John lives in Paris] and [Hi], with a model
    that tags the first four tokens and leaves [Hi] untagged, the export
    returns and its file holds three newlines: the four tokens of the
    first sentence share one line, and no empty line stands between the
    two sentences.  The format asks for a line per token and an empty line
    after each sentence. *)
Theorem export_joins_tagged_tokens :
  result Runs.export Runs.corpus_world = inr tt
  /\ (exists text,
        fs (after Runs.export Runs.corpus_world) !! "out.iob"
        = Some (TextFile text)
        /\ lines text
           = ["John NNP B-PERlives VBZ Oin IN OParis NNP B-LOC"; "Hi UH O";
              ""; ""])
  /\ lines (iob_text [[("John", ("B-PER", ["NNP"])); ("lives", ("O", ["VBZ"]));
                       ("in", ("O", ["IN"])); ("Paris", ("B-LOC", ["NNP"]))];
                      [("Hi", ("", ["UH"]))]])
     = ["John NNP B-PER"; "lives VBZ O"; "in IN O"; "Paris NNP B-LOC"; "";
        "Hi UH O"; ""; ""].
Proof.
  split; [reflexivity|]. split; [|reflexivity].
  eexists. split; [vm_compute; reflexivity|]. reflexivity.
Qed.

(** C10: on a sentence of three tokens for which the model returns two
    tags, the export returns, writes for the two first tokens and drops
    the third, but the two are written on one line. *)
Theorem export_short_predictions :
  result (predict_sentence ["John"; "lives"; "in"]) Runs.short_world
  = inr ["B-PER"; "O"]
  /\ result Runs.export Runs.short_world = inr tt
  /\ filter is_write (new_calls Runs.export Runs.short_world)
     = [File_write "out.iob" "John NNP B-PER";
        File_write "out.iob" "lives VBZ O"; File_write "out.iob" nl]
  /\ (exists text,
        fs (after Runs.export Runs.short_world) !! "out.iob"
        = Some (TextFile text)
        /\ lines text = ["John NNP B-PERlives VBZ O"; ""]).
Proof.
  split; [reflexivity|]. split; [reflexivity|]. split; [reflexivity|].
  eexists. split; [vm_compute; reflexivity|]. reflexivity.
Qed.

(** * Further runs on the dictionary tagger *)

Lemma fit_ignores_unused_settings_run :
  same_for_fit defaults Edge.other_settings
  /\ result Runs.fit_validated
            {| self := init 300 defaults; fs := ∅; calls := [] |}
     = result Runs.fit_validated
              {| self := init 300 Edge.other_settings; fs := ∅; calls := [] |}
  /\ new_calls Runs.fit_validated
               {| self := init 300 defaults; fs := ∅; calls := [] |}
     = new_calls Runs.fit_validated
                 {| self := init 300 Edge.other_settings; fs := ∅;
                    calls := [] |}.
Proof.
  assert (H : same_for_fit defaults Edge.other_settings)
    by (repeat split; reflexivity).
  split; [exact H|].
  destruct (fit_ignores_unused_settings (C := Dict.collaborators)
              Runs.x Runs.y (Some Runs.x) (Some Runs.y) 1 32 1 None true 300
              defaults Edge.other_settings ∅ [] H) as (Hres & Hcalls & _).
  split; [exact Hres|exact Hcalls].
Defined.

Lemma fit_can_drop_model_run :
  model (self (Dict.tagging Dict.ner ∅)) = Some Dict.ner
  /\ adopts Runs.x (Some Runs.y) = true
  /\ result Edge.fit_labels_only (Dict.tagging Dict.ner ∅) = inr tt
  /\ model (self (after Edge.fit_labels_only (Dict.tagging Dict.ner ∅)))
     = None
  /\ forall x_test y_test,
       run (score x_test y_test)
           (after Edge.fit_labels_only (Dict.tagging Dict.ner ∅))
       = (inl (OSError no_model_msg),
          after Edge.fit_labels_only (Dict.tagging Dict.ner ∅)).
Proof.
  split; [reflexivity|]. split; [reflexivity|].
  eapply (fit_can_drop_model Runs.x Runs.y None (Some Runs.y) 1 32 1 None
            true (Dict.tagging Dict.ner ∅)); reflexivity.
Defined.

Lemma fit_then_predict_sentence_run :
  adopts Runs.x (Some Runs.y) = true
  /\ result (Runs.fit_validated;; predict_sentence Runs.sentence)
            (Dict.fresh ∅)
     = inr ["B-PER"; "O"].
Proof.
  split; [reflexivity|].
  eapply (fit_then_predict_sentence Runs.x Runs.y (Some Runs.x)
            (Some Runs.y) 1 32 1 None true (Dict.fresh ∅)); reflexivity.
Defined.

Lemma load_has_default_settings_run :
  config_of (self Edge.lstm_world) = Edge.lstm_settings
  /\ exists loaded,
       result (load "models/ner" 300)
              (after (save "models/ner") Edge.lstm_world) = inr loaded
       /\ config_of loaded = defaults
       /\ nn_type loaded = "GRU".
Proof.
  split; [reflexivity|]. eexists. split; [reflexivity|].
  destruct (load_has_default_settings
              (after (save "models/ner") Edge.lstm_world) "models/ner" 300
              _ eq_refl) as (Hconfig & _).
  split; [exact Hconfig|reflexivity].
Defined.


Lemma trailing_slash_is_immaterial_run :
  "models/ner" <> ""
  /\ endswith_sep "models/ner" = false
  /\ run (save "models/ner/") (Dict.tagging Dict.ner ∅)
     = run (save "models/ner") (Dict.tagging Dict.ner ∅)
  /\ run (load "models/ner/" 300)
         (after (save "models/ner") (Dict.tagging Dict.ner ∅))
     = run (load "models/ner" 300)
           (after (save "models/ner") (Dict.tagging Dict.ner ∅)).
Proof.
  assert (Hd : "models/ner" <> "") by discriminate.
  split; [exact Hd|]. split; [reflexivity|].
  split.
  - exact (proj1 (trailing_slash_is_immaterial (Dict.tagging Dict.ner ∅)
                    "models/ner" 300 Hd eq_refl)).
  - exact (proj2 (trailing_slash_is_immaterial
                    (after (save "models/ner") (Dict.tagging Dict.ner ∅))
                    "models/ner" 300 Hd eq_refl)).
Defined.

Lemma export_text_run :
  result Runs.export Runs.corpus_world = inr tt
  /\ fs (after Runs.export Runs.corpus_world)
     = <["out.iob" :=
           TextFile ("John NNP B-PERlives VBZ Oin IN OParis NNP B-LOC"
                     +:+ nl +:+ "Hi UH O" +:+ nl +:+ nl)]>
         (fs Runs.corpus_world)
  /\ self (after Runs.export Runs.corpus_world) = self Runs.corpus_world.
Proof.
  exact (export_text Runs.corpus_world "in.iob" "out.iob"
           [["John"; "lives"; "in"; "Paris"]; ["Hi"]]
           [["B-PER"; "O"; "O"; "B-LOC"]; ["O"]]
           [[["NNP"]; ["VBZ"]; ["IN"]; ["NNP"]]; [["UH"]]]
           ("John NNP B-PERlives VBZ Oin IN OParis NNP B-LOC"
            +:+ nl +:+ "Hi UH O" +:+ nl +:+ nl)
           None eq_refl eq_refl).
Defined.

Lemma export_unreadable_corpus_run :
  run Runs.export (Dict.tagging Dict.ner ∅)
  = (inl (CollabError "no corpus"),
     {| self := self (Dict.tagging Dict.ner ∅);
        fs := {["out.iob" := TextFile ""]};
        calls := [Open_w "out.iob"; Call_load_data "in.iob"] |}).
Proof.
  assert (H : load_data "in.iob"
                 (<["out.iob" := TextFile ""]> (fs (Dict.tagging Dict.ner ∅)))
               = inl "no corpus") by (vm_compute; reflexivity).
  unfold Runs.export.
  rewrite (export_unreadable_corpus (Dict.tagging Dict.ner ∅) "in.iob"
             "out.iob" "no corpus" H).
  reflexivity.
Defined.

Lemma export_without_model_run :
  model (self Edge.unready_world) = None
  /\ result Runs.export Edge.unready_world
     = inl (AttributeError none_predict_msg)
  /\ fs (after Runs.export Edge.unready_world)
     = <["out.iob" := TextFile ""]> (fs Edge.unready_world).
Proof.
  split; [reflexivity|].
  exact (export_without_model Edge.unready_world "in.iob" "out.iob"
           [["John"; "lives"; "in"; "Paris"]; ["Hi"]]
           [["B-PER"; "O"; "O"; "B-LOC"]; ["O"]]
           [[["NNP"]; ["VBZ"]; ["IN"]; ["NNP"]]; [["UH"]]]
           eq_refl eq_refl).
Defined.

Lemma export_of_untagged_run :
  result Runs.export Edge.blank_world = inr tt
  /\ exists text,
       fs (after Runs.export Edge.blank_world) !! "out.iob"
       = Some (TextFile text)
       /\ lines text
          = ["John NNP O"; "lives VBZ O"; "in IN O"; "Paris NNP O"; "";
             "Hi UH O"; ""; ""].
Proof.
  destruct (export_of_untagged Edge.blank_world "in.iob" "out.iob"
              [["John"; "lives"; "in"; "Paris"]; ["Hi"]]
              [["B-PER"; "O"; "O"; "B-LOC"]; ["O"]]
              [[["NNP"]; ["VBZ"]; ["IN"]; ["NNP"]]; [["UH"]]]
              Edge.no_tags eq_refl) as (Hres & Hfile).
  { repeat constructor. }
  split; [exact Hres|]. eexists. split; [exact Hfile|reflexivity].
Defined.
